(** * The Windows registration entry point of flutter_mcp_client

    [windows/flutter_mcp_client_plugin_c_api.cpp] defines one function,

<<
    void FlutterMcpClientPluginCApiRegisterWithRegistrar(
        FlutterDesktopPluginRegistrarRef registrar) {
      flutter_mcp_client::FlutterMcpClientPlugin::RegisterWithRegistrar(
          flutter::PluginRegistrarManager::GetInstance()
              ->GetRegistrar<flutter::PluginRegistrarWindows>(registrar));
    }
>>

    Its body is three calls into code that lives outside the file: the
    embedder's [PluginRegistrarManager::GetInstance] and [GetRegistrar], and
    the plugin's [RegisterWithRegistrar].  The function is embedded as a
    computation in a small monad that threads the program state through those
    calls, stops at the first call that does not return, and logs every call
    it makes.  The three callees are the fields of a [Host] record, so every
    theorem holds for whatever the embedder and the plugin do. *)

From stdpp Require Import base option list gmap strings.

(** ** Pointers

    All values the function handles are pointers.  A pointer is an address
    tagged with the type it points to, so that a registrar handle, the
    manager and a typed registrar cannot be confused. *)

Inductive pointee : Set :=
| FlutterDesktopPluginRegistrar
| PluginRegistrarManager
| PluginRegistrarWindows.

Record ptr (T : pointee) : Set := Ptr { addr : Z }.
Arguments Ptr {T} addr.
Arguments addr {T} p.

Definition nullptr {T : pointee} : ptr T := Ptr 0.

(** The opaque handle of the C API. *)
Definition FlutterDesktopPluginRegistrarRef : Set :=
  ptr FlutterDesktopPluginRegistrar.

#[global] Instance ptr_eq_dec (T : pointee) : EqDecision (ptr T).
Proof. solve_decision. Defined.

(** ** Calls

    What the function can be seen to do from outside: the calls it makes,
    with their arguments, in the order it makes them. *)

Inductive call : Set :=
| GetInstanceCall
| GetRegistrarCall (this : ptr PluginRegistrarManager)
                   (registrar_ref : FlutterDesktopPluginRegistrarRef)
| RegisterWithRegistrarCall (registrar : ptr PluginRegistrarWindows).

(** The typed registrars handed to the plugin's registration method. *)
Definition registrations (cs : list call) : list (ptr PluginRegistrarWindows) :=
  omap (fun c => match c with
                 | RegisterWithRegistrarCall p => Some p
                 | _ => None
                 end) cs.

(** The handles handed to the manager's [GetRegistrar]. *)
Definition handles_passed (cs : list call)
    : list FlutterDesktopPluginRegistrarRef :=
  omap (fun c => match c with
                 | GetRegistrarCall _ r => Some r
                 | _ => None
                 end) cs.

(** A call with the handle it carries renamed by [f]. *)
Definition relabel
    (f : FlutterDesktopPluginRegistrarRef -> FlutterDesktopPluginRegistrarRef)
    (c : call) : call :=
  match c with
  | GetRegistrarCall this r => GetRegistrarCall this (f r)
  | _ => c
  end.
(** ** Program state, callees and the execution monad *)

Section Execution.

(** [M] is the state of the process-wide registrar manager (with the
    registrars it owns), [O] is all the rest of the program state. *)
Context {M O : Type}.

Record State : Type := MkState { manager : M; other : O }.

(** A callee maps the state before the call to the value it returns and
    the state after; [None] is a call that does not return (a fault of
    the process, as on a malformed handle). *)
Definition callee (X : Type) : Type := State -> option (X * State).

Record Host : Type := MkHost {
  GetInstance : callee (ptr PluginRegistrarManager);
  GetRegistrar :
    ptr PluginRegistrarManager -> FlutterDesktopPluginRegistrarRef ->
    callee (ptr PluginRegistrarWindows);
  RegisterWithRegistrar : ptr PluginRegistrarWindows -> callee unit
}.

Record Outcome (A : Type) : Type := MkOutcome {
  calls : list call;
  result : option (A * State)
}.
Arguments MkOutcome {A} calls result.
Arguments calls {A} o.
Arguments result {A} o.

Definition Exec (A : Type) : Type := State -> Outcome A.

Definition ret {A} (a : A) : Exec A :=
  fun s => MkOutcome [] (Some (a, s)).

Definition bind {A B} (c : Exec A) (k : A -> Exec B) : Exec B :=
  fun s =>
    let o := c s in
    match result o with
    | None => MkOutcome (calls o) None
    | Some (a, s') =>
        let o' := k a s' in
        MkOutcome (calls o ++ calls o') (result o')
    end.

(** Calling out: the call is logged, then the callee runs. *)
Definition invoke {X} (c : call) (f : callee X) : Exec X :=
  fun s => MkOutcome [c] (f s).

End Execution.

Arguments State : clear implicits.
Arguments Host : clear implicits.
Arguments callee : clear implicits.
Arguments Outcome : clear implicits.
Arguments Exec : clear implicits.
Arguments MkOutcome {M O A} calls result.
Arguments calls {M O A} o.
Arguments result {M O A} o.

(** [Exec M O] is a monad in stdpp's sense, which gives it the
    [x ← c; k] notation. *)
#[global] Instance exec_ret {M O} : MRet (Exec M O) := fun A => ret.
#[global] Instance exec_bind {M O} : MBind (Exec M O) :=
  fun A B k c => bind c k.

(** ** The entry point *)

Definition FlutterMcpClientPluginCApiRegisterWithRegistrar {M O}
    (host : Host M O) (registrar : FlutterDesktopPluginRegistrarRef)
    : Exec M O unit :=
  instance ← invoke GetInstanceCall (GetInstance host);
  typed ← invoke (GetRegistrarCall instance registrar)
                 (GetRegistrar host instance registrar);
  invoke (RegisterWithRegistrarCall typed)
         (RegisterWithRegistrar host typed).

(** ** What a callee may touch

    Properties of the three callees that the theorems below take as
    hypotheses; none of them is assumed of every host. *)

Section CalleeProperties.

Context {M O : Type}.

(** The callee leaves everything outside the registrar manager alone. *)
Definition keeps_other {X} (f : callee M O X) : Prop :=
  forall s x s', f s = Some (x, s') -> other s' = other s.

Definition host_keeps_other (host : Host M O) : Prop :=
  keeps_other (GetInstance host)
  /\ (forall this r, keeps_other (GetRegistrar host this r))
  /\ (forall p, keeps_other (RegisterWithRegistrar host p)).

(** Two results agree: both calls fault, or both return the same value and
    leave the same manager state. *)
Definition agree {X} (o1 o2 : option (X * State M O)) : Prop :=
  match o1, o2 with
  | Some (x1, t1), Some (x2, t2) => x1 = x2 /\ manager t1 = manager t2
  | None, None => True
  | _, _ => False
  end.

(** What the callee does is a function of the manager state alone. *)
Definition reads_manager_only {X} (f : callee M O X) : Prop :=
  forall s1 s2, manager s1 = manager s2 -> agree (f s1) (f s2).

Definition host_reads_manager_only (host : Host M O) : Prop :=
  reads_manager_only (GetInstance host)
  /\ (forall this r, reads_manager_only (GetRegistrar host this r))
  /\ (forall p, reads_manager_only (RegisterWithRegistrar host p)).

(** The callee keeps the invariant [I] of the manager state. *)
Definition preserves (I : M -> Prop) {X} (f : callee M O X) : Prop :=
  forall s x s', I (manager s) -> f s = Some (x, s') -> I (manager s').

Definition host_preserves (I : M -> Prop) (host : Host M O) : Prop :=
  preserves I (GetInstance host)
  /\ (forall this r, preserves I (GetRegistrar host this r))
  /\ (forall p, preserves I (RegisterWithRegistrar host p)).

(** The host honours the whole chain of calls made for [registrar] from
    state [s]: the handle is valid for it. *)
Definition host_accepts (host : Host M O)
    (registrar : FlutterDesktopPluginRegistrarRef) (s : State M O) : Prop :=
  exists instance s1 typed s2 s3,
    GetInstance host s = Some (instance, s1)
    /\ GetRegistrar host instance registrar s1 = Some (typed, s2)
    /\ RegisterWithRegistrar host typed s2 = Some (tt, s3).

(** The host that renames every handle by [f] on its way into
    [GetRegistrar], and is [host] otherwise. *)
Definition rename_handles
    (f : FlutterDesktopPluginRegistrarRef -> FlutterDesktopPluginRegistrarRef)
    (host : Host M O) : Host M O := {|
  GetInstance := GetInstance host;
  GetRegistrar := fun this r => GetRegistrar host this (f r);
  RegisterWithRegistrar := RegisterWithRegistrar host
|}.
End CalleeProperties.

(** ** Hosts to run the entry point on

    The manager state of all of them is a table from handle addresses to the
    names of the plugins registered with the registrar that wraps the
    handle. *)
Abbreviation registry := (gmap Z (list string)).

Section Hosts.

Context {O : Type}.

Definition the_manager : ptr PluginRegistrarManager := Ptr 4096.

Definition plugin_name : string := "FlutterMcpClientPlugin".

Definition wrapper_of (r : FlutterDesktopPluginRegistrarRef)
    : ptr PluginRegistrarWindows := Ptr (addr r).

(** The first host wraps a handle the first time it is resolved, faults on
    a null handle and on a manager other than the singleton, and lets a
    plugin register only with a registrar the manager owns. *)
Definition wrapping_host : Host registry O := {|
  GetInstance := fun s => Some (the_manager, s);
  GetRegistrar := fun this r s =>
    if decide (this = the_manager /\ r <> nullptr) then
      Some (wrapper_of r,
            MkState (match manager s !! addr r with
                     | Some _ => manager s
                     | None => <[addr r := []]> (manager s)
                     end) (other s))
    else None;
  RegisterWithRegistrar := fun p s =>
    match manager s !! addr p with
    | Some plugins =>
        Some (tt, MkState (<[addr p := plugins ++ [plugin_name]]> (manager s))
                          (other s))
    | None => None
    end
|}.

(** The second host only looks handles up: an unknown handle resolves to
    the null registrar, and registering with a registrar the manager does
    not own does nothing. *)
Definition lookup_host : Host registry O := {|
  GetInstance := fun s => Some (the_manager, s);
  GetRegistrar := fun _ r s =>
    Some (match manager s !! addr r with
          | Some _ => wrapper_of r
          | None => nullptr
          end, s);
  RegisterWithRegistrar := fun p s =>
    Some (tt, match manager s !! addr p with
              | Some plugins =>
                  MkState (<[addr p := plugins ++ [plugin_name]]> (manager s))
                          (other s)
              | None => s
              end)
|}.

End Hosts.

(** The third host keeps a count of the registrations outside the manager,
    and the registrar it resolves a handle to is the one numbered by that
    count. *)
Definition counting_host : Host registry Z := {|
  GetInstance := fun s => Some (the_manager, s);
  GetRegistrar := fun _ _ s => Some (Ptr (other s), s);
  RegisterWithRegistrar := fun _ s =>
    Some (tt, MkState (manager s) (other s + 1)%Z)
|}.
(** A start state: the manager owns nothing, the rest of the state is 42. *)
Definition empty_state : State registry Z := MkState ∅ 42%Z.

(** A start state in which the handle at address 7 is already wrapped. *)
Definition wrapped7 : State registry Z := MkState {[ 7%Z := [] ]} 42%Z.

Definition handle7 : FlutterDesktopPluginRegistrarRef := Ptr 7.
Definition handle9 : FlutterDesktopPluginRegistrarRef := Ptr 9.

(** Case analysis on what a callee of these hosts does. *)
Ltac callee_cases :=
  unfold keeps_other, reads_manager_only, preserves, agree;
  simpl; intros;
  try match goal with
      | H : manager _ = manager _ |- _ => rewrite ?H
      end;
  repeat case_match; simplify_eq; simpl in *; auto.

(** ** What the entry point does, for any host *)

Section EntryPoint.

Context {M O : Type} (host : Host M O).

(** The run, call by call: each callee is reached only if the one before
    it returned, and the outcome of the last one is the outcome of the
    entry point. *)
Lemma entry_point_run registrar s :
  FlutterMcpClientPluginCApiRegisterWithRegistrar host registrar s =
  match GetInstance host s with
  | None => MkOutcome [GetInstanceCall] None
  | Some (instance, s1) =>
      match GetRegistrar host instance registrar s1 with
      | None =>
          MkOutcome [GetInstanceCall; GetRegistrarCall instance registrar]
                    None
      | Some (typed, s2) =>
          MkOutcome [GetInstanceCall; GetRegistrarCall instance registrar;
                     RegisterWithRegistrarCall typed]
                    (RegisterWithRegistrar host typed s2)
      end
  end.
Proof.
  unfold FlutterMcpClientPluginCApiRegisterWithRegistrar, mbind, exec_bind,
    bind, invoke; simpl.
  destruct (GetInstance host s) as [[instance s1]|]; simpl; [|reflexivity].
  destruct (GetRegistrar host instance registrar s1) as [[typed s2]|];
    reflexivity.
Qed.

(** Whatever the host does, the plugin's registration method is never
    reached twice. *)
Lemma at_most_one_registration registrar s :
  let o := FlutterMcpClientPluginCApiRegisterWithRegistrar host registrar s in
  length (registrations (calls o)) <= 1.
Proof.
  simpl. rewrite entry_point_run.
  destruct (GetInstance host s) as [[instance s1]|]; simpl; [|lia].
  destruct (GetRegistrar host instance registrar s1) as [[typed s2]|];
    simpl; lia.
Qed.

(** Two runs from states with the same manager state go the same way, when
    the callees look at nothing but the manager state. *)
Lemma entry_point_agree registrar s t :
  host_reads_manager_only host ->
  manager s = manager t ->
  let o1 := FlutterMcpClientPluginCApiRegisterWithRegistrar host registrar s in
  let o2 := FlutterMcpClientPluginCApiRegisterWithRegistrar host registrar t in
  calls o1 = calls o2 /\ agree (result o1) (result o2).
Proof.
  intros (Hinst & Hreg & Hplug) Hst. simpl.
  rewrite !entry_point_run.
  specialize (Hinst s t Hst).
  destruct (GetInstance host s) as [[i s1]|],
           (GetInstance host t) as [[j t1]|]; simpl in Hinst; try done.
  destruct Hinst as [<- H1].
  specialize (Hreg i registrar s1 t1 H1).
  destruct (GetRegistrar host i registrar s1) as [[p s2]|],
           (GetRegistrar host i registrar t1) as [[q t2]|];
    simpl in Hreg; try done.
  destruct Hreg as [<- H2]. simpl.
  split; [reflexivity | apply Hplug, H2].
Qed.

(** C1: one call of the entry point, made in a state where the manager
    singleton is obtained and resolves the handle, invokes the plugin's
    [RegisterWithRegistrar] exactly once, on exactly the typed registrar
    that the singleton's [GetRegistrar] returned for the handle; the three
    calls are all the calls there are, each made once and in this order,
    and what the entry point comes to is what that one invocation of the
    plugin's method comes to. *)
Theorem registers_exactly_once registrar s instance s1 typed s2 :
  GetInstance host s = Some (instance, s1) ->
  GetRegistrar host instance registrar s1 = Some (typed, s2) ->
  let o := FlutterMcpClientPluginCApiRegisterWithRegistrar host registrar s in
  calls o = [GetInstanceCall; GetRegistrarCall instance registrar;
             RegisterWithRegistrarCall typed]
  /\ registrations (calls o) = [typed]
  /\ length (registrations (calls o)) = 1
  /\ result o = RegisterWithRegistrar host typed s2.
Proof.
  intros Hinst Hreg. simpl. rewrite entry_point_run, Hinst, Hreg. simpl.
  repeat split.
Qed.
(** C2: the entry point has no failure of its own.  It completes, with
    nothing to report, exactly when the host honours the chain of calls
    made for the handle; so for a handle the host accepts it always
    completes, and when it does not complete one of the three callees did
    not return. *)
Theorem completes_iff_host_accepts registrar s :
  let o := FlutterMcpClientPluginCApiRegisterWithRegistrar host registrar s in
  host_accepts host registrar s <-> exists s', result o = Some (tt, s').
Proof.
  simpl. rewrite entry_point_run. split.
  - intros (instance & s1 & typed & s2 & s3 & -> & -> & Hplug).
    exists s3. exact Hplug.
  - intros [s' Hrun]. unfold host_accepts.
    destruct (GetInstance host s) as [[instance s1]|]; [|discriminate].
    destruct (GetRegistrar host instance registrar s1) as [[typed s2]|] eqn:E;
      [|discriminate].
    simpl in Hrun. by exists instance, s1, typed, s2, s'.
Qed.

(** C3: the handle is only forwarded.  The one handle ever passed to
    [GetRegistrar] is the argument itself, and it is the argument itself
    that the callee receives: what the entry point comes to is what
    [GetInstance], then [GetRegistrar] on the handle as given, then
    [RegisterWithRegistrar] come to, so the state left behind is the
    callees' alone and the entry point keeps nothing of the handle.  The
    handle is opaque to it: renaming the handle before the call is the same
    as renaming it on its way into [GetRegistrar], so nothing is read off
    it and nothing branched on. *)
Theorem handle_only_forwarded registrar s :
  let o := FlutterMcpClientPluginCApiRegisterWithRegistrar host registrar s in
  handles_passed (calls o)
    = match GetInstance host s with
      | Some _ => [registrar]
      | None => []
      end
  /\ result o
     = match GetInstance host s with
       | Some (instance, s1) =>
           match GetRegistrar host instance registrar s1 with
           | Some (typed, s2) => RegisterWithRegistrar host typed s2
           | None => None
           end
       | None => None
       end
  /\ forall f : FlutterDesktopPluginRegistrarRef ->
                FlutterDesktopPluginRegistrarRef,
       let renamed :=
         FlutterMcpClientPluginCApiRegisterWithRegistrar host (f registrar) s in
       let inside :=
         FlutterMcpClientPluginCApiRegisterWithRegistrar
           (rename_handles f host) registrar s in
       result renamed = result inside
       /\ calls renamed = relabel f <$> calls inside.
Proof.
  simpl. split; [|split].
  - rewrite entry_point_run.
    destruct (GetInstance host s) as [[instance s1]|]; [|reflexivity].
    destruct (GetRegistrar host instance registrar s1) as [[typed s2]|];
      reflexivity.
  - rewrite entry_point_run.
    destruct (GetInstance host s) as [[instance s1]|]; [|reflexivity].
    destruct (GetRegistrar host instance registrar s1) as [[typed s2]|];
      reflexivity.
  - intros f.
    unfold FlutterMcpClientPluginCApiRegisterWithRegistrar, mbind, exec_bind,
      bind, invoke; simpl.
    destruct (GetInstance host s) as [[instance s1]|]; simpl; [|done].
    destruct (GetRegistrar host instance (f registrar) s1) as [[typed s2]|];
      simpl; done.
Qed.

(** C4, as amended: the entry point changes no state of its own accord.
    The state a completed call leaves is the state its three callees left,
    each run once and in turn on what the one before returned; so when each
    of the three changes nothing outside the registrar manager, every part
    of the program state outside the manager is as the call found it. *)
Theorem only_manager_state_changes registrar s s' :
  result (FlutterMcpClientPluginCApiRegisterWithRegistrar host registrar s)
    = Some (tt, s') ->
  (exists instance s1 typed s2,
      GetInstance host s = Some (instance, s1)
      /\ GetRegistrar host instance registrar s1 = Some (typed, s2)
      /\ RegisterWithRegistrar host typed s2 = Some (tt, s'))
  /\ (host_keeps_other host -> other s' = other s).
Proof.
  rewrite entry_point_run.
  destruct (GetInstance host s) as [[instance s1]|] eqn:E1; [|discriminate].
  destruct (GetRegistrar host instance registrar s1) as [[typed s2]|] eqn:E2;
    [|discriminate].
  simpl. intros E3. split.
  - by exists instance, s1, typed, s2.
  - intros (Hinst & Hreg & Hplug).
    rewrite (Hplug _ _ _ _ E3), (Hreg _ _ _ _ _ E2). exact (Hinst _ _ _ E1).
Qed.

(** C5: the entry point is a function of one argument, the opaque registrar
    reference, and its value is of type [unit]: a completed call yields
    [tt] and nothing else, all that it did being in the state it leaves. *)
Theorem returns_nothing :
  let entry_point : FlutterDesktopPluginRegistrarRef -> Exec M O unit :=
    FlutterMcpClientPluginCApiRegisterWithRegistrar host in
  forall registrar s,
    result (entry_point registrar s)
      = (fun s' => (tt, s')) <$> (snd <$> result (entry_point registrar s)).
Proof.
  intros entry_point registrar s.
  destruct (result (entry_point registrar s)) as [[[] s']|]; reflexivity.
Qed.

(** C6: the handle is not validated.  Once the manager singleton is
    obtained, the very next call is [GetRegistrar] on the handle as given,
    whatever the handle is, the null handle included: there is no call,
    test or return in between, and whether the registration is reached is
    for [GetRegistrar] alone to decide. *)
Theorem handle_not_validated registrar s instance s1 :
  GetInstance host s = Some (instance, s1) ->
  let o := FlutterMcpClientPluginCApiRegisterWithRegistrar host registrar s in
  take 2 (calls o) = [GetInstanceCall; GetRegistrarCall instance registrar]
  /\ registrations (calls o)
       = match GetRegistrar host instance registrar s1 with
         | Some (typed, _) => [typed]
         | None => []
         end.
Proof.
  intros Hinst. simpl. rewrite entry_point_run, Hinst.
  destruct (GetRegistrar host instance registrar s1) as [[typed s2]|];
    split; reflexivity.
Qed.

(** C8: the typed registrar that [GetRegistrar] returns is not checked.
    Whatever it is, null included, the last call of the entry point is the
    plugin's [RegisterWithRegistrar] on it, and the outcome of that call is
    the outcome of the entry point. *)
Theorem resolved_registrar_not_checked registrar s instance s1 typed s2 :
  GetInstance host s = Some (instance, s1) ->
  GetRegistrar host instance registrar s1 = Some (typed, s2) ->
  let o := FlutterMcpClientPluginCApiRegisterWithRegistrar host registrar s in
  last (calls o) = Some (RegisterWithRegistrarCall typed)
  /\ result o = RegisterWithRegistrar host typed s2.
Proof.
  intros Hinst Hreg. simpl. rewrite entry_point_run, Hinst, Hreg.
  split; reflexivity.
Qed.

(** C9, as amended: the entry point adds no dependence of its own.  When
    each of its three callees depends on the manager state alone, two calls
    with the same handle from states with the same manager state make the
    same calls and either both fault or both leave the same manager state;
    and the typed registrar that [GetRegistrar] resolves in the one call is
    the registrar resolved in the other and the one registered there, with
    the outcome the plugin's [RegisterWithRegistrar] has on it. *)
Theorem deterministic registrar s t :
  host_reads_manager_only host ->
  manager s = manager t ->
  let o1 := FlutterMcpClientPluginCApiRegisterWithRegistrar host registrar s in
  let o2 := FlutterMcpClientPluginCApiRegisterWithRegistrar host registrar t in
  registrations (calls o1) = registrations (calls o2)
  /\ calls o1 = calls o2
  /\ agree (result o1) (result o2)
  /\ forall instance s1 typed s2,
       GetInstance host s = Some (instance, s1) ->
       GetRegistrar host instance registrar s1 = Some (typed, s2) ->
       (exists t1 t2,
           GetInstance host t = Some (instance, t1)
           /\ GetRegistrar host instance registrar t1 = Some (typed, t2))
       /\ registrations (calls o2) = [typed]
       /\ agree (result o2) (RegisterWithRegistrar host typed s2).
Proof.
  intros Hhost Hst. simpl.
  destruct (entry_point_agree registrar s t Hhost Hst) as [Hcalls Hres].
  rewrite Hcalls. split; [reflexivity|]. split; [reflexivity|].
  split; [exact Hres|].
  intros instance s1 typed s2 E1 E2.
  destruct Hhost as (Hinst & Hreg & Hplug).
  specialize (Hinst s t Hst). rewrite E1 in Hinst.
  destruct (GetInstance host t) as [[j t1]|] eqn:F1; simpl in Hinst; [|done].
  destruct Hinst as [<- H1].
  specialize (Hreg instance registrar s1 t1 H1). rewrite E2 in Hreg.
  destruct (GetRegistrar host instance registrar t1) as [[q t2]|] eqn:F2;
    simpl in Hreg; [|done].
  destruct Hreg as [<- H2].
  split; [by exists t1, t2|].
  rewrite entry_point_run, F1, F2. simpl. split; [reflexivity|].
    apply Hplug. by symmetry.
Qed.

(** C10, as amended: the entry point has no state of its own.  The state
    a completed call leaves is the state that the three callees of its one
    call statement left, each run once; so an invariant of the manager state
    that [GetInstance], [GetRegistrar] and [RegisterWithRegistrar] each
    preserve holds after the call if it held before, and a second call runs
    on exactly the state those callees left.  When the callees depend on the
    manager state alone, that second call behaves as a call made in any
    state with the manager state the first one left. *)
Theorem preserves_host_invariants (I : M -> Prop) registrar next s s1 :
  let first := FlutterMcpClientPluginCApiRegisterWithRegistrar host registrar in
  let second := FlutterMcpClientPluginCApiRegisterWithRegistrar host next in
  result (first s) = Some (tt, s1) ->
  (exists instance s' typed s'',
      GetInstance host s = Some (instance, s')
      /\ GetRegistrar host instance registrar s' = Some (typed, s'')
      /\ RegisterWithRegistrar host typed s'' = Some (tt, s1))
  /\ (host_preserves I host -> I (manager s) -> I (manager s1))
  /\ (calls ((first ≫= fun _ => second) s)
        = calls (first s) ++ calls (second s1)
      /\ result ((first ≫= fun _ => second) s) = result (second s1))
  /\ (host_reads_manager_only host ->
      forall t, manager t = manager s1 ->
        calls ((first ≫= fun _ => second) s)
          = calls (first s) ++ calls (second t)
        /\ agree (result ((first ≫= fun _ => second) s)) (result (second t))).
Proof.
  intros first second Hrun.
  assert (Hboth : calls ((first ≫= fun _ => second) s)
                    = calls (first s) ++ calls (second s1)
                  /\ result ((first ≫= fun _ => second) s)
                     = result (second s1)).
  { unfold mbind, exec_bind, bind. rewrite Hrun. simpl. by split. }
  assert (Hchain : exists instance s' typed s'',
             GetInstance host s = Some (instance, s')
             /\ GetRegistrar host instance registrar s' = Some (typed, s'')
             /\ RegisterWithRegistrar host typed s'' = Some (tt, s1)).
  { revert Hrun. unfold first. rewrite entry_point_run.
    destruct (GetInstance host s) as [[instance s0]|] eqn:E1;
      [|discriminate].
    destruct (GetRegistrar host instance registrar s0) as [[typed s2]|] eqn:E2;
      [|discriminate].
    simpl. intros E3. by exists instance, s0, typed, s2. }
  split; [exact Hchain|]. split; [|split; [exact Hboth|]].
  - intros (Hinst & Hreg & Hplug) HI.
    destruct Hchain as (instance & s0 & typed & s2 & E1 & E2 & E3).
    eapply Hplug; [|exact E3]. eapply Hreg; [|exact E2].
    eapply Hinst; [exact HI|exact E1].
  - intros Hhost t Ht. destruct Hboth as [-> ->].
    destruct (entry_point_agree next s1 t Hhost (eq_sym Ht))
      as [Hcalls Hres].
    fold second in Hcalls, Hres.
    rewrite Hcalls. split; [reflexivity | exact Hres].
Qed.

End EntryPoint.

(** ** Runs on the two hosts *)

Example run_wrapping_empty :
  FlutterMcpClientPluginCApiRegisterWithRegistrar wrapping_host handle7 empty_state
  = MkOutcome [GetInstanceCall; GetRegistrarCall the_manager handle7;
               RegisterWithRegistrarCall (wrapper_of handle7)]
              (Some (tt, MkState {[ 7%Z := [plugin_name] ]} 42%Z)).
Proof. vm_compute. reflexivity. Qed.

Example run_wrapping_null :
  FlutterMcpClientPluginCApiRegisterWithRegistrar wrapping_host nullptr empty_state
  = MkOutcome [GetInstanceCall; GetRegistrarCall the_manager nullptr] None.
Proof. reflexivity. Qed.

Example run_lookup_unknown :
  FlutterMcpClientPluginCApiRegisterWithRegistrar lookup_host handle7 empty_state
  = MkOutcome [GetInstanceCall; GetRegistrarCall the_manager handle7;
               RegisterWithRegistrarCall nullptr]
              (Some (tt, empty_state)).
Proof. reflexivity. Qed.

(** ** The two hosts have the properties the theorems ask for *)

Section HostFacts.

Context {O : Type}.

Lemma wrapping_host_keeps_other : host_keeps_other (@wrapping_host O).
Proof. repeat split; callee_cases. Qed.

Lemma lookup_host_keeps_other : host_keeps_other (@lookup_host O).
Proof. repeat split; callee_cases. Qed.

Lemma wrapping_host_reads_manager_only :
  host_reads_manager_only (@wrapping_host O).
Proof. repeat split; callee_cases. Qed.

Lemma lookup_host_reads_manager_only :
  host_reads_manager_only (@lookup_host O).
Proof. repeat split; callee_cases. Qed.

(** The wrapping host's registration method never makes the manager own a
    registrar it did not own before. *)
Lemma wrapping_host_registration_adds_no_registrar (k : Z) p :
  preserves (fun m : registry => m !! k = None)
            (RegisterWithRegistrar (@wrapping_host O) p).
Proof.
  callee_cases. rewrite lookup_insert_ne; [assumption | congruence].
Qed.

(** The looking-up host never makes the manager own a new registrar. *)
Lemma lookup_host_adds_no_registrar (k : Z) :
  host_preserves (fun m : registry => m !! k = None) (@lookup_host O).
Proof.
  repeat split; callee_cases.
  rewrite lookup_insert_ne; [assumption | congruence].
Qed.

End HostFacts.

(** ** The theorems at work on the hosts *)

Lemma registers_exactly_once_witness :
  GetInstance wrapping_host empty_state = Some (the_manager, empty_state)
  /\ GetRegistrar wrapping_host the_manager handle7 empty_state
     = Some (wrapper_of handle7, wrapped7)
  /\ calls (FlutterMcpClientPluginCApiRegisterWithRegistrar
              wrapping_host handle7 empty_state)
     = [GetInstanceCall; GetRegistrarCall the_manager handle7;
        RegisterWithRegistrarCall (wrapper_of handle7)]
  /\ registrations (calls (FlutterMcpClientPluginCApiRegisterWithRegistrar
                             wrapping_host handle7 empty_state))
     = [wrapper_of handle7]
  /\ length (registrations
               (calls (FlutterMcpClientPluginCApiRegisterWithRegistrar
                         wrapping_host handle7 empty_state))) = 1
  /\ result (FlutterMcpClientPluginCApiRegisterWithRegistrar
               wrapping_host handle7 empty_state)
     = RegisterWithRegistrar wrapping_host (wrapper_of handle7) wrapped7.
Proof.
  assert (H1 : GetInstance wrapping_host empty_state
               = Some (the_manager, empty_state)) by reflexivity.
  assert (H2 : GetRegistrar wrapping_host the_manager handle7 empty_state
               = Some (wrapper_of handle7, wrapped7))
    by (vm_compute; reflexivity).
  split; [exact H1 | split; [exact H2 |]].
  exact (registers_exactly_once wrapping_host handle7 empty_state
           the_manager empty_state (wrapper_of handle7) wrapped7 H1 H2).
Defined.

Lemma completes_iff_host_accepts_witness :
  host_accepts wrapping_host handle7 empty_state
  /\ exists s', result (FlutterMcpClientPluginCApiRegisterWithRegistrar
                          wrapping_host handle7 empty_state) = Some (tt, s').
Proof.
  assert (H : host_accepts wrapping_host handle7 empty_state).
  { exists the_manager, empty_state, (wrapper_of handle7), wrapped7,
      (MkState {[ 7%Z := [plugin_name] ]} 42%Z).
    repeat split; vm_compute; reflexivity. }
  split; [exact H |].
  exact (proj1 (completes_iff_host_accepts wrapping_host handle7 empty_state) H).
Defined.

Lemma only_manager_state_changes_witness :
  result (FlutterMcpClientPluginCApiRegisterWithRegistrar
            wrapping_host handle7 empty_state)
  = Some (tt, MkState {[ 7%Z := [plugin_name] ]} 42%Z)
  /\ host_keeps_other (@wrapping_host Z)
  /\ RegisterWithRegistrar wrapping_host (wrapper_of handle7) wrapped7
     = Some (tt, MkState {[ 7%Z := [plugin_name] ]} 42%Z)
  /\ other (MkState (M := registry) {[ 7%Z := [plugin_name] ]} 42%Z)
     = other empty_state.
Proof.
  assert (H : result (FlutterMcpClientPluginCApiRegisterWithRegistrar
                        wrapping_host handle7 empty_state)
              = Some (tt, MkState {[ 7%Z := [plugin_name] ]} 42%Z))
    by (vm_compute; reflexivity).
  destruct (only_manager_state_changes wrapping_host handle7 empty_state _ H)
    as [(instance & s1 & typed & s2 & E1 & E2 & E3) Hframe].
  split; [exact H | split; [exact wrapping_host_keeps_other | split]].
  - injection E1 as <- <-.
    assert (E2' : Some (wrapper_of handle7, wrapped7) = Some (typed, s2))
      by (rewrite <- E2; vm_compute; reflexivity).
    injection E2' as <- <-. exact E3.
  - exact (Hframe wrapping_host_keeps_other).
Defined.

(** C4, as the claim has it, fails on the counting host: a completed call
    leaves the count outside the manager one higher than it found it. *)
Lemma state_outside_manager_may_change :
  ~ (forall registrar (s s' : State registry Z),
       result (FlutterMcpClientPluginCApiRegisterWithRegistrar
                 counting_host registrar s) = Some (tt, s') ->
       other s' = other s).
Proof.
  intros claim.
  specialize (claim handle7 empty_state (MkState ∅ 43%Z) eq_refl).
  discriminate claim.
Qed.

Lemma handle_not_validated_witness :
  GetInstance wrapping_host empty_state = Some (the_manager, empty_state)
  /\ take 2 (calls (FlutterMcpClientPluginCApiRegisterWithRegistrar
                      wrapping_host nullptr empty_state))
     = [GetInstanceCall; GetRegistrarCall the_manager nullptr]
  /\ registrations (calls (FlutterMcpClientPluginCApiRegisterWithRegistrar
                             wrapping_host nullptr empty_state))
     = [].
Proof.
  assert (H : GetInstance wrapping_host empty_state
              = Some (the_manager, empty_state)) by reflexivity.
  split; [exact H |].
  exact (handle_not_validated wrapping_host nullptr empty_state
           the_manager empty_state H).
Defined.

Lemma resolved_registrar_not_checked_witness :
  GetInstance lookup_host empty_state = Some (the_manager, empty_state)
  /\ GetRegistrar lookup_host the_manager handle7 empty_state
     = Some (nullptr, empty_state)
  /\ last (calls (FlutterMcpClientPluginCApiRegisterWithRegistrar
                    lookup_host handle7 empty_state))
     = Some (RegisterWithRegistrarCall nullptr)
  /\ result (FlutterMcpClientPluginCApiRegisterWithRegistrar
               lookup_host handle7 empty_state)
     = RegisterWithRegistrar lookup_host nullptr empty_state.
Proof.
  assert (H1 : GetInstance lookup_host empty_state
               = Some (the_manager, empty_state)) by reflexivity.
  assert (H2 : GetRegistrar lookup_host the_manager handle7 empty_state
               = Some (nullptr, empty_state)) by reflexivity.
  split; [exact H1 | split; [exact H2 |]].
  exact (resolved_registrar_not_checked lookup_host handle7 empty_state
           the_manager empty_state nullptr empty_state H1 H2).
Defined.

Lemma deterministic_witness :
  host_reads_manager_only (@wrapping_host Z)
  /\ manager empty_state = manager (MkState (M := registry) ∅ 0%Z)
  /\ registrations (calls (FlutterMcpClientPluginCApiRegisterWithRegistrar
                             wrapping_host handle7 empty_state))
     = registrations (calls (FlutterMcpClientPluginCApiRegisterWithRegistrar
                               wrapping_host handle7 (MkState ∅ 0%Z)))
  /\ calls (FlutterMcpClientPluginCApiRegisterWithRegistrar
              wrapping_host handle7 empty_state)
     = calls (FlutterMcpClientPluginCApiRegisterWithRegistrar
                wrapping_host handle7 (MkState ∅ 0%Z))
  /\ agree (result (FlutterMcpClientPluginCApiRegisterWithRegistrar
                      wrapping_host handle7 empty_state))
           (result (FlutterMcpClientPluginCApiRegisterWithRegistrar
                      wrapping_host handle7 (MkState ∅ 0%Z)))
  /\ registrations (calls (FlutterMcpClientPluginCApiRegisterWithRegistrar
                             wrapping_host handle7 (MkState ∅ 0%Z)))
     = [wrapper_of handle7]
  /\ agree (result (FlutterMcpClientPluginCApiRegisterWithRegistrar
                      wrapping_host handle7 (MkState ∅ 0%Z)))
           (RegisterWithRegistrar wrapping_host (wrapper_of handle7) wrapped7).
Proof.
  destruct (deterministic wrapping_host handle7 empty_state (MkState ∅ 0%Z)
              wrapping_host_reads_manager_only eq_refl)
    as (Hregs & Hcalls & Hres & Hsame).
  assert (H2 : GetRegistrar wrapping_host the_manager handle7 empty_state
               = Some (wrapper_of handle7, wrapped7))
    by (vm_compute; reflexivity).
  destruct (Hsame the_manager empty_state (wrapper_of handle7) wrapped7
              eq_refl H2) as (_ & Hone & Hplug).
  split; [exact wrapping_host_reads_manager_only | split; [reflexivity |]].
  split; [exact Hregs | split; [exact Hcalls | split; [exact Hres |]]].
  split; [exact Hone | exact Hplug].
Defined.

(** C9, as the claim has it, fails on the counting host: two states with the
    same manager state and different counts resolve the handle to different
    typed registrars, and the registration calls differ. *)
Lemma same_manager_state_is_not_enough :
  ~ (forall registrar (s t : State registry Z),
       manager s = manager t ->
       registrations (calls (FlutterMcpClientPluginCApiRegisterWithRegistrar
                               counting_host registrar s))
       = registrations (calls (FlutterMcpClientPluginCApiRegisterWithRegistrar
                                 counting_host registrar t))
       /\ calls (FlutterMcpClientPluginCApiRegisterWithRegistrar
                   counting_host registrar s)
          = calls (FlutterMcpClientPluginCApiRegisterWithRegistrar
                     counting_host registrar t)
       /\ agree (result (FlutterMcpClientPluginCApiRegisterWithRegistrar
                           counting_host registrar s))
                (result (FlutterMcpClientPluginCApiRegisterWithRegistrar
                           counting_host registrar t))).
Proof.
  intros claim.
  destruct (claim handle7 (MkState ∅ 1%Z) (MkState ∅ 2%Z) eq_refl)
    as [Hregs _].
  discriminate Hregs.
Qed.

Lemma preserves_host_invariants_witness :
  result (FlutterMcpClientPluginCApiRegisterWithRegistrar
            lookup_host handle7 wrapped7)
  = Some (tt, MkState {[ 7%Z := [plugin_name] ]} 42%Z)
  /\ host_preserves (fun m : registry => m !! 9%Z = None) (@lookup_host Z)
  /\ host_reads_manager_only (@lookup_host Z)
  /\ manager wrapped7 !! 9%Z = None
  /\ manager (MkState (O := Z) ({[ 7%Z := [plugin_name] ]} : registry) 42%Z)
       !! 9%Z = None
  /\ result ((FlutterMcpClientPluginCApiRegisterWithRegistrar
                lookup_host handle7
              ≫= fun _ => FlutterMcpClientPluginCApiRegisterWithRegistrar
                            lookup_host handle9) wrapped7)
     = result (FlutterMcpClientPluginCApiRegisterWithRegistrar
                 lookup_host handle9
                 (MkState {[ 7%Z := [plugin_name] ]} 42%Z))
  /\ agree
       (result ((FlutterMcpClientPluginCApiRegisterWithRegistrar
                   lookup_host handle7
                 ≫= fun _ => FlutterMcpClientPluginCApiRegisterWithRegistrar
                               lookup_host handle9) wrapped7))
       (result (FlutterMcpClientPluginCApiRegisterWithRegistrar
                  lookup_host handle9
                  (MkState {[ 7%Z := [plugin_name] ]} 0%Z))).
Proof.
  assert (Hrun : result (FlutterMcpClientPluginCApiRegisterWithRegistrar
                           lookup_host handle7 wrapped7)
                 = Some (tt, MkState {[ 7%Z := [plugin_name] ]} 42%Z))
    by (vm_compute; reflexivity).
  assert (H9 : manager wrapped7 !! 9%Z = None) by reflexivity.
  pose proof (preserves_host_invariants lookup_host
                (fun m : registry => m !! 9%Z = None)
                handle7 handle9 wrapped7 _ Hrun)
    as (_ & Hinv & [_ Hsecond] & Hnext).
  split; [exact Hrun |].
  split; [exact (lookup_host_adds_no_registrar 9) |].
  split; [exact lookup_host_reads_manager_only |].
  split; [exact H9 |].
  split; [exact (Hinv (lookup_host_adds_no_registrar 9) H9) |].
  split; [exact Hsecond |].
  exact (proj2 (Hnext lookup_host_reads_manager_only
                  (MkState {[ 7%Z := [plugin_name] ]} 0%Z) eq_refl)).
Defined.

(** C10, as the claim has it, fails twice over.  If only the plugin's
    [RegisterWithRegistrar] is meant by the single call, it fails on the
    wrapping host: that the handle at address 7 is not wrapped is an
    invariant of the registration method and holds of the empty manager,
    but not after the entry point ran on that handle, because
    [GetRegistrar] wrapped it.  However the single call is read, it fails
    on the counting host: the second of two successive calls does not
    behave as a call made in another state with the manager state the
    first one left, because the calls also interact through the count kept
    outside the manager. *)
Lemma calls_interact_outside_manager :
  ~ (forall (I : registry -> Prop) registrar (s s' : State registry Z),
       (forall p, preserves I (RegisterWithRegistrar (@wrapping_host Z) p)) ->
       I (manager s) ->
       result (FlutterMcpClientPluginCApiRegisterWithRegistrar
                 wrapping_host registrar s) = Some (tt, s') ->
       I (manager s'))
  /\ ~ (forall registrar next (s s1 t : State registry Z),
          result (FlutterMcpClientPluginCApiRegisterWithRegistrar
                    counting_host registrar s) = Some (tt, s1) ->
          manager t = manager s1 ->
          calls ((FlutterMcpClientPluginCApiRegisterWithRegistrar
                    counting_host registrar
                  ≫= fun _ => FlutterMcpClientPluginCApiRegisterWithRegistrar
                                counting_host next) s)
          = calls (FlutterMcpClientPluginCApiRegisterWithRegistrar
                     counting_host registrar s)
            ++ calls (FlutterMcpClientPluginCApiRegisterWithRegistrar
                        counting_host next t)
          /\ agree
               (result ((FlutterMcpClientPluginCApiRegisterWithRegistrar
                           counting_host registrar
                         ≫= fun _ =>
                              FlutterMcpClientPluginCApiRegisterWithRegistrar
                                counting_host next) s))
               (result (FlutterMcpClientPluginCApiRegisterWithRegistrar
                          counting_host next t))).
Proof.
  split.
  - intros claim.
    specialize (claim (fun m => m !! 7%Z = None) handle7 empty_state
                  (MkState {[ 7%Z := [plugin_name] ]} 42%Z)
                  (wrapping_host_registration_adds_no_registrar 7)).
    assert (H : manager (MkState (O := Z)
                           ({[ 7%Z := [plugin_name] ]} : registry) 42%Z)
                  !! 7%Z = None).
    { apply claim; [reflexivity | vm_compute; reflexivity]. }
    vm_compute in H. discriminate H.
  - intros claim.
    destruct (claim handle7 handle7 (MkState ∅ 0%Z) (MkState ∅ 1%Z)
                (MkState ∅ 5%Z) eq_refl eq_refl) as [Hcalls _].
    discriminate Hcalls.
Qed.

(** ** Faults, order and repetition

    What the body of the entry point shows beyond a completed call: what it
    does when a callee does not return, and when it is called again. *)

Section FaultsAndRepetition.

Context {M O : Type} (host : Host M O).

(** X1: whatever the host does, a callee that faults included, the calls of
    the entry point are the beginning of the one sequence [GetInstance],
    [GetRegistrar], [RegisterWithRegistrar]: [GetInstance] is always called
    first, no callee is called twice, none is retried after a fault, and
    nothing is called after the registration. *)
Theorem calls_in_order_without_retry registrar s :
  let o := FlutterMcpClientPluginCApiRegisterWithRegistrar host registrar s in
  head (calls o) = Some GetInstanceCall
  /\ exists instance typed,
       calls o `prefix_of` [GetInstanceCall;
                            GetRegistrarCall instance registrar;
                            RegisterWithRegistrarCall typed].
Proof.
  simpl. rewrite entry_point_run.
  destruct (GetInstance host s) as [[instance s1]|].
  - destruct (GetRegistrar host instance registrar s1) as [[typed s2]|].
    + split; [reflexivity | exists instance, typed; reflexivity].
    + split; [reflexivity |].
      exists instance, nullptr. by eexists [_].
  - split; [reflexivity |].
    exists nullptr, nullptr. by eexists [_; _].
Qed.

(** X2: the plugin's registration method is left uncalled exactly when the
    manager singleton could not be obtained or did not resolve the handle;
    the entry point then does not complete, and it has no fallback
    registration. *)
Theorem no_registration_without_resolution registrar s :
  let o := FlutterMcpClientPluginCApiRegisterWithRegistrar host registrar s in
  (registrations (calls o) = []
   <-> GetInstance host s = None
       \/ exists instance s1,
            GetInstance host s = Some (instance, s1)
            /\ GetRegistrar host instance registrar s1 = None)
  /\ (registrations (calls o) = [] -> result o = None).
Proof.
  simpl. rewrite entry_point_run.
  destruct (GetInstance host s) as [[instance s1]|] eqn:E1.
  - destruct (GetRegistrar host instance registrar s1) as [[typed s2]|] eqn:E2;
      simpl.
    + split; [split |]; try discriminate.
      intros [H | (i & t & [= <- <-] & H)]; congruence.
    + split; [split |]; try reflexivity.
      intros _. right. by exists instance, s1.
  - simpl. split; [split |]; try reflexivity. intros _. by left.
Qed.

(** X3: the entry point keeps no record of what it registered.  Called a
    second time after a completed call, with the same handle or another, it
    fetches the manager singleton again, resolves the handle again and
    invokes the plugin's registration method again: two calls make two
    registrations. *)
Theorem second_call_registers_again registrar next s s1 instance t1 typed t2 :
  let first := FlutterMcpClientPluginCApiRegisterWithRegistrar host registrar in
  let second := FlutterMcpClientPluginCApiRegisterWithRegistrar host next in
  result (first s) = Some (tt, s1) ->
  GetInstance host s1 = Some (instance, t1) ->
  GetRegistrar host instance next t1 = Some (typed, t2) ->
  let both := (first ≫= fun _ => second) s in
  calls both
    = calls (first s) ++ [GetInstanceCall; GetRegistrarCall instance next;
                          RegisterWithRegistrarCall typed]
  /\ registrations (calls both) = registrations (calls (first s)) ++ [typed]
  /\ length (registrations (calls both)) = 2
  /\ result both = RegisterWithRegistrar host typed t2.
Proof.
  intros first second Hrun Hinst Hreg both.
  assert (Hboth : both = MkOutcome
            (calls (first s) ++ [GetInstanceCall; GetRegistrarCall instance next;
                                 RegisterWithRegistrarCall typed])
            (RegisterWithRegistrar host typed t2)).
  { unfold both, mbind, exec_bind, bind. rewrite Hrun. simpl.
    unfold second. by rewrite entry_point_run, Hinst, Hreg. }
  rewrite Hboth. simpl.
  assert (Hone : length (registrations (calls (first s))) = 1).
  { revert Hrun. unfold first. rewrite entry_point_run.
    destruct (GetInstance host s) as [[i0 s0]|]; [|discriminate].
    destruct (GetRegistrar host i0 registrar s0) as [[p0 s2]|];
      [reflexivity | discriminate]. }
  assert (Hregs : registrations
            (calls (first s) ++ [GetInstanceCall; GetRegistrarCall instance next;
                                 RegisterWithRegistrarCall typed])
          = registrations (calls (first s)) ++ [typed]).
  { unfold registrations. by rewrite omap_app. }
  repeat split; [exact Hregs |].
  rewrite Hregs, length_app, Hone. reflexivity.
Qed.

End FaultsAndRepetition.

Lemma second_call_registers_again_witness :
  result (FlutterMcpClientPluginCApiRegisterWithRegistrar
            wrapping_host handle7 empty_state)
  = Some (tt, MkState {[ 7%Z := [plugin_name] ]} 42%Z)
  /\ registrations
       (calls ((FlutterMcpClientPluginCApiRegisterWithRegistrar
                  wrapping_host handle7
                ≫= fun _ => FlutterMcpClientPluginCApiRegisterWithRegistrar
                              wrapping_host handle7) empty_state))
     = [wrapper_of handle7; wrapper_of handle7]
  /\ result ((FlutterMcpClientPluginCApiRegisterWithRegistrar
                wrapping_host handle7
              ≫= fun _ => FlutterMcpClientPluginCApiRegisterWithRegistrar
                            wrapping_host handle7) empty_state)
     = Some (tt, MkState {[ 7%Z := [plugin_name; plugin_name] ]} 42%Z).
Proof.
  assert (Hrun : result (FlutterMcpClientPluginCApiRegisterWithRegistrar
                           wrapping_host handle7 empty_state)
                 = Some (tt, MkState {[ 7%Z := [plugin_name] ]} 42%Z))
    by (vm_compute; reflexivity).
  pose proof (second_call_registers_again wrapping_host handle7 handle7
                empty_state (MkState {[ 7%Z := [plugin_name] ]} 42%Z)
                the_manager (MkState {[ 7%Z := [plugin_name] ]} 42%Z)
                (wrapper_of handle7)
                (MkState {[ 7%Z := [plugin_name] ]} 42%Z)
                Hrun eq_refl) as H.
  assert (Hreg : GetRegistrar wrapping_host the_manager handle7
                   (MkState {[ 7%Z := [plugin_name] ]} 42%Z)
                 = Some (wrapper_of handle7,
                         MkState {[ 7%Z := [plugin_name] ]} 42%Z))
    by (vm_compute; reflexivity).
  destruct (H Hreg) as (_ & Hregs & _ & Hres).
  split; [exact Hrun | split].
  - rewrite Hregs. vm_compute. reflexivity.
  - rewrite Hres. vm_compute. reflexivity.
Defined.

Lemma no_registration_without_resolution_witness :
  registrations (calls (FlutterMcpClientPluginCApiRegisterWithRegistrar
                          wrapping_host nullptr empty_state)) = []
  /\ result (FlutterMcpClientPluginCApiRegisterWithRegistrar
               wrapping_host nullptr empty_state) = None.
Proof.
  assert (H : registrations
                (calls (FlutterMcpClientPluginCApiRegisterWithRegistrar
                          wrapping_host nullptr empty_state)) = [])
    by reflexivity.
  split; [exact H |].
  exact (proj2 (no_registration_without_resolution wrapping_host nullptr
                  empty_state) H).
Defined.
